(** * EnergyMeter: per-component energy accounting (energy_meter.py)

    A shallow embedding of the class [EnergyMeter] and of the parts of its
    collaborators (pyRAPL, pandas, numpy, datetime) that its methods go
    through.

    Numbers.  A finite Python/numpy float is represented by the exact
    rational it denotes: rounding and overflow of the arithmetic are not
    represented, and nothing below is about them.  The non-finite values
    [inf], [-inf] and [nan] are kept where the code produces them from
    finite operands (a division by zero, the mean of nothing), because the
    code branches on them ([np.isnan]).  There is a single zero.  Equality
    of two values is [feq]: the same non-finite value, or equal rationals.

    Time.  A [datetime] or pandas timestamp is represented by its position,
    in seconds, on the naive wall-clock axis of the host.
    [datetime.fromtimestamp] takes epoch seconds to that axis: it rounds to
    the microsecond, half to even, and adds the offset of local time from
    UTC in force at that second ([utcoffset], given by the host).

    Host.  Besides the clock and the files, two things are the host's: its
    time zone ([utcoffset]) and whether its numpy still converts an array of
    one element with [float()] ([numpy_legacy]).

    Failure.  A Python exception is a value of [exn]; a method that may
    raise returns an [outcome]. *)

From Stdlib Require Import QArith ZArith List String Bool Lia Lqa.
Import ListNotations.

Local Open Scope string_scope.

(** ** numpy float64 values *)

Module Np.

Inductive float64 : Type :=
| Fin (q : Q)
| Inf (neg : bool)
| NaN.

Definition Qneg (q : Q) : bool := (Qnum q <? 0)%Z.
Definition Qzero (q : Q) : bool := (Qnum q =? 0)%Z.

Definition fadd (x y : float64) : float64 :=
  match x, y with
  | NaN, _ | _, NaN => NaN
  | Inf s, Inf t => if Bool.eqb s t then Inf s else NaN
  | Inf s, Fin _ | Fin _, Inf s => Inf s
  | Fin a, Fin b => Fin (a + b)
  end.

Definition fopp (x : float64) : float64 :=
  match x with
  | Fin a => Fin (- a)
  | Inf s => Inf (negb s)
  | NaN => NaN
  end.

Definition fsub (x y : float64) : float64 := fadd x (fopp y).

Definition fmul (x y : float64) : float64 :=
  match x, y with
  | NaN, _ | _, NaN => NaN
  | Inf s, Inf t => Inf (xorb s t)
  | Inf s, Fin q | Fin q, Inf s => if Qzero q then NaN else Inf (xorb s (Qneg q))
  | Fin a, Fin b => Fin (a * b)
  end.

Definition fdiv (x y : float64) : float64 :=
  match x, y with
  | NaN, _ | _, NaN => NaN
  | Inf _, Inf _ => NaN
  | Inf s, Fin q => Inf (xorb s (Qneg q))
  | Fin _, Inf _ => Fin 0
  | Fin a, Fin b =>
      if Qzero b then (if Qzero a then NaN else Inf (Qneg a)) else Fin (a / b)
  end.

(** [x <= y] on floats: false as soon as one side is [nan]. *)
Definition fleb (x y : float64) : bool :=
  match x, y with
  | NaN, _ | _, NaN => false
  | Inf s, Inf t => s || negb t
  | Inf s, Fin _ => s
  | Fin _, Inf t => negb t
  | Fin a, Fin b => Qle_bool a b
  end.

Definition fltb (x y : float64) : bool :=
  match x, y with
  | NaN, _ | _, NaN => false
  | _, _ => negb (fleb y x)
  end.

Definition isnan (x : float64) : bool :=
  match x with NaN => true | _ => false end.

Definition isfinite (x : float64) : bool :=
  match x with Fin _ => true | _ => false end.

(** The same value. *)
Definition feq (x y : float64) : Prop :=
  match x, y with
  | Fin a, Fin b => a == b
  | Inf s, Inf t => s = t
  | NaN, NaN => True
  | _, _ => False
  end.

(** [np.sum] over a one-dimensional array. *)
Definition sum (l : list float64) : float64 := fold_left fadd l (Fin 0).

(** [Series.sum] over an int64 column wraps around silently. *)
Definition wrap64 (z : Z) : Z :=
  ((z + 2 ^ 63) mod 2 ^ 64 - 2 ^ 63)%Z.

Definition sum_int64 (l : list Z) : Z :=
  fold_left (fun acc z => wrap64 (acc + z)) l 0%Z.

(** [Series.mean] over a float column: [nan] on an empty selection. *)
Definition mean (l : list Q) : float64 :=
  match l with
  | [] => NaN
  | _ => Fin (fold_left Qplus l 0 / inject_Z (Z.of_nat (List.length l)))
  end.

End Np.
Import Np.

Infix "=f=" := feq (at level 70, no associativity).

(** ** Python values, exceptions and results *)

Inductive pyvalue : Type :=
| PyNone
| PyBool (b : bool)
| PyInt (z : Z)
| PyStr (s : string).

(** Truth value of an object in a condition ([if label:]). *)
Definition truthy (v : pyvalue) : bool :=
  match v with
  | PyNone => false
  | PyBool b => b
  | PyInt z => negb (z =? 0)%Z
  | PyStr s => negb (s =? "")%string
  end.

Inductive exn : Type :=
| AttributeError (attr : string)     (* attribute looked up on None, or missing *)
| TypeError
| ValueError
| ZeroDivisionError
| KeyError (key : string)
| FileNotFoundError (path : string)
| PyRAPLException.                   (* pyRAPL.setup() on a host without RAPL *)

(** The name of the class of an exception. *)
Definition class_name (e : exn) : string :=
  match e with
  | AttributeError _ => "AttributeError"
  | TypeError => "TypeError"
  | ValueError => "ValueError"
  | ZeroDivisionError => "ZeroDivisionError"
  | KeyError _ => "KeyError"
  | FileNotFoundError _ => "FileNotFoundError"
  | PyRAPLException => "PyRAPLException"
  end.

Inductive outcome (A : Type) : Type :=
| Ok (a : A)
| Raise (e : exn).
Arguments Ok {A} a.
Arguments Raise {A} e.

Definition bind {A B : Type} (c : outcome A) (k : A -> outcome B) : outcome B :=
  match c with
  | Ok a => k a
  | Raise e => Raise e
  end.

Notation "x <- c ;; k" := (bind c (fun x => k))
  (at level 61, c at next level, right associativity).

(** ** pyRAPL, as far as the meter goes through it

    [pyRAPL.Measurement] and [pyRAPL.Result] belong to the third-party
    package; they are represented by what the package does: [begin] stores
    the clock and the energy counters, [end] stores a [Result] with
    [timestamp] in seconds, [duration] in microseconds and, for [pkg] and
    for [dram], one counter delta in microjoules per socket, or [None]
    when no delta of the domain is zero or more (a host without that
    domain, a counter that wrapped). *)

(** What the host gives at one instant: the clock ([time_ns]) and the RAPL
    counters of the domains it has, one per socket. *)
Record reading : Type := {
  time_ns : Z;
  pkg_uj : list Z;
  dram_uj : list Z
}.

Module Result.
Record t : Type := {
  label : pyvalue;
  timestamp : Q;
  duration : Q;
  pkg : option (list Q);
  dram : option (list Q)
}.
End Result.

Module Measurement.
Record t : Type := {
  label : pyvalue;
  snapshot : option reading;       (* _ts_begin and _energy_begin *)
  result : option Result.t
}.

Definition new (label : pyvalue) : t :=
  {| label := label; snapshot := None; result := None |}.

Definition begin (now : reading) (m : t) : t :=
  {| label := label m; snapshot := Some now; result := result m |}.

Fixpoint delta (e1 e0 : list Z) : list Q :=
  match e1, e0 with
  | a :: e1', b :: e0' => inject_Z (a - b) :: delta e1' e0'
  | _, _ => []
  end.

(** The deltas of a domain, or [None] when none of them is zero or more. *)
Definition observed (l : list Q) : option (list Q) :=
  if existsb (fun x => Qle_bool 0 x) l then Some l else None.

Definition end_ (now : reading) (m : t) : outcome t :=
  match snapshot m with
  | None => Raise TypeError
  | Some b =>
      Ok {| label := label m;
            snapshot := snapshot m;
            result := Some {| Result.label := label m;
                              Result.timestamp := (time_ns b # 1000000000);
                              Result.duration := (time_ns now - time_ns b # 1000);
                              Result.pkg := observed (delta (pkg_uj now) (pkg_uj b));
                              Result.dram := observed (delta (dram_uj now) (dram_uj b)) |} |}
  end.
End Measurement.

(** [pyRAPL.setup()]: fails on a host without readable RAPL domains. *)
Definition setup (rapl_available : bool) : outcome unit :=
  if rapl_available then Ok tt else Raise PyRAPLException.

(** ** The log files written by start_meters.sh *)

(** gpu_stats.csv, after [pd.to_datetime] of its [timestamp] column. *)
Record gpu_row : Type := {
  g_timestamp : Q;
  power_usage : Q                  (* column "power_usage(W)" *)
}.

(** disk_stats.csv, read with its first line skipped and [;] as separator:
    the index holds the instant, and (the headers being shifted) column
    [ByteSize] the process name and column [Operation] the byte count. *)
Record disk_row : Type := {
  d_index : Q;
  ByteSize : string;
  Operation : Z
}.

Inductive DataFrame : Type :=
| GpuStats (rows : list gpu_row)
| DiskStats (rows : list disk_row).

(** The files a path resolves to; [None] when there is no readable file. *)
Definition filesystem : Type := string -> option DataFrame.

Definition read_csv (fs : filesystem) (filename : string) : outcome DataFrame :=
  match fs filename with
  | Some df => Ok df
  | None => Raise (FileNotFoundError filename)
  end.

(** [Series.str.contains(pat)] for a pattern without metacharacters. *)
Fixpoint contains (pat s : string) : bool :=
  String.prefix pat s ||
  match s with
  | EmptyString => false
  | String _ s' => contains pat s'
  end.

(** ** The meter *)

Record EnergyMeter : Type := {
  disk_avg_speed : Q;
  disk_active_power : Q;
  disk_idle_power : Q;
  meter : option Measurement.t;
  label : pyvalue
}.

Definition set_meter (self : EnergyMeter) (m : option Measurement.t) : EnergyMeter :=
  {| disk_avg_speed := disk_avg_speed self;
     disk_active_power := disk_active_power self;
     disk_idle_power := disk_idle_power self;
     meter := m;
     label := label self |}.

(** [__init__]; [label] is [None] when the argument is omitted. *)
Definition init (rapl_available : bool)
    (disk_avg_speed disk_active_power disk_idle_power : Q)
    (label : option pyvalue) : outcome EnergyMeter :=
  _ <- setup rapl_available ;;
  let label := match label with Some v => v | None => PyNone end in
  Ok {| disk_avg_speed := disk_avg_speed;
        disk_active_power := disk_active_power;
        disk_idle_power := disk_idle_power;
        meter := None;
        label := if truthy label then label else PyStr "Meter" |}.

Definition begin (now : reading) (self : EnergyMeter) : outcome EnergyMeter :=
  let m := Measurement.new (label self) in
  Ok (set_meter self (Some (Measurement.begin now m))).

Definition end_ (now : reading) (self : EnergyMeter) : outcome EnergyMeter :=
  match meter self with
  | None => Raise (AttributeError "end")
  | Some m =>
      m' <- Measurement.end_ now m ;;
      Ok (set_meter self (Some m'))
  end.

(** [self.meter.result], whose fields every estimator reads. *)
Definition meter_result (self : EnergyMeter) : outcome Result.t :=
  match meter self with
  | None => Raise (AttributeError "result")
  | Some m =>
      match Measurement.result m with
      | None => Raise (AttributeError "timestamp")
      | Some r => Ok r
      end
  end.

(** ** Sequences of calls on one instance *)

Inductive call : Type :=
| Begin (now : reading)
| End (now : reading).

Definition is_begin (c : call) : bool :=
  match c with Begin _ => true | End _ => false end.

Definition invoke (self : EnergyMeter) (c : call) : outcome EnergyMeter :=
  match c with
  | Begin now => begin now self
  | End now => end_ now self
  end.

(** A call that raises leaves the instance as it was. *)
Definition step (self : EnergyMeter) (c : call) : EnergyMeter :=
  match invoke self c with
  | Ok self' => self'
  | Raise _ => self
  end.

Definition run (calls : list call) (self : EnergyMeter) : EnergyMeter :=
  fold_left step calls self.

(** ** A worked session

    Ten seconds on one socket; the GPU sampler caught nothing inside the
    window; the probe saw two transfers of the measured process, 500 MB and
    300 MB, on a disk of 200 MB/s drawing 6 W active and 1 W idle.  The
    host keeps UTC. *)

Module Demo.

Definition utc : Z -> Z := fun _ => 0%Z.

Definition t0 : reading :=
  {| time_ns := 1000000000000; pkg_uj := [5000000%Z]; dram_uj := [1000000%Z] |}.

Definition t1 : reading :=
  {| time_ns := 1010000000000; pkg_uj := [25000000%Z]; dram_uj := [4000000%Z] |}.

Definition fresh (speed active idle : Q) : EnergyMeter :=
  {| disk_avg_speed := speed;
     disk_active_power := active;
     disk_idle_power := idle;
     meter := None;
     label := PyStr "Meter" |}.

Definition closed (speed active idle : Q) : EnergyMeter :=
  run [Begin t0; End t1] (fresh speed active idle).

(** The same instance closed in the clock tick it was opened in. *)
Definition closed_at_once : EnergyMeter :=
  run [Begin t0; End t0] (fresh (200000000 # 1) 6 1).

(** The same ten seconds, begun 400 ns later. *)
Definition t0_late : reading :=
  {| time_ns := 1000000000400; pkg_uj := [5000000%Z]; dram_uj := [1000000%Z] |}.

Definition t1_late : reading :=
  {| time_ns := 1010000000400; pkg_uj := [25000000%Z]; dram_uj := [4000000%Z] |}.

Definition closed_late : EnergyMeter :=
  run [Begin t0_late; End t1_late] (fresh (200000000 # 1) 6 1).

(** A host without the DRAM domain. *)
Definition closed_no_dram : EnergyMeter :=
  run [Begin {| time_ns := 1000000000000; pkg_uj := [5000000%Z]; dram_uj := [] |};
       End {| time_ns := 1010000000000; pkg_uj := [25000000%Z]; dram_uj := [] |}]
      (fresh (200000000 # 1) 6 1).

Definition gpu_log : list gpu_row :=
  [ {| g_timestamp := 999; power_usage := 50 |};
    {| g_timestamp := 1010; power_usage := 70 |} ].

Definition gpu_log_busy : list gpu_row :=
  [ {| g_timestamp := 1000; power_usage := 50 |};
    {| g_timestamp := 1005; power_usage := 70 |};
    {| g_timestamp := 1010; power_usage := 300 |} ].

Definition disk_log : list disk_row :=
  [ {| d_index := 1001; ByteSize := "python3"; Operation := 500000000 |};
    {| d_index := 1002; ByteSize := "/usr/bin/python"; Operation := 300000000 |};
    {| d_index := 1003; ByteSize := "bash"; Operation := 12345 |};
    {| d_index := 1010; ByteSize := "python"; Operation := 999 |} ].

Definition fs_of (gpu : option (list gpu_row)) (disk : option (list disk_row))
  : filesystem :=
  fun path =>
    if (path =? "logs/gpu_stats.csv")%string then option_map GpuStats gpu
    else if (path =? "logs/disk_stats.csv")%string then option_map DiskStats disk
    else None.

Definition fs : filesystem := fs_of (Some gpu_log) (Some disk_log).
Definition fs_busy : filesystem := fs_of (Some gpu_log_busy) (Some disk_log).
Definition fs_no_gpu : filesystem := fs_of None (Some disk_log).
Definition fs_no_disk : filesystem := fs_of (Some gpu_log) None.
Definition fs_no_rows : filesystem := fs_of (Some gpu_log) (Some []).

Definition meter200 : EnergyMeter := closed (200000000 # 1) 6 1.

(** The result stored by [end] in [closed]. *)
Definition session : Result.t :=
  {| Result.label := PyStr "Meter";
     Result.timestamp := 1000000000000 # 1000000000;
     Result.duration := 10000000000 # 1000;
     Result.pkg := Some [inject_Z 20000000];
     Result.dram := Some [inject_Z 3000000] |}.

(** A throughput constant below the observed rate: 50 MB/s, 20 W idle. *)
Definition meter50 : EnergyMeter := closed (50000000 # 1) 6 20.

End Demo.

(** The call raised an [AttributeError], on whichever attribute. *)
Definition raises_attribute_error {A : Type} (c : outcome A) : Prop :=
  exists attr, c = Raise (AttributeError attr).

(** ** A session on two sockets *)

Module TwoSockets.

Definition t0 : reading :=
  {| time_ns := 1000000000000;
     pkg_uj := [5000000%Z; 7000000%Z];
     dram_uj := [1000000%Z; 2000000%Z] |}.

Definition t1 : reading :=
  {| time_ns := 1010000000000;
     pkg_uj := [25000000%Z; 8000000%Z];
     dram_uj := [4000000%Z; 2500000%Z] |}.

Definition closed : EnergyMeter :=
  run [Begin t0; End t1] (Demo.fresh (200000000 # 1) 6 1).

Definition session : Result.t :=
  {| Result.label := PyStr "Meter";
     Result.timestamp := 1000000000000 # 1000000000;
     Result.duration := 10000000000 # 1000;
     Result.pkg := Some [inject_Z 20000000; inject_Z 1000000];
     Result.dram := Some [inject_Z 3000000; inject_Z 500000] |}.

End TwoSockets.

(** ** Rounding to the microsecond *)

(** The integer nearest to [x], a tie going to the even one. *)
Definition round_half_even (x : Q) : Z :=
  let f := (Qnum x / QDen x)%Z in
  let r := (Qnum x mod QDen x)%Z in
  match (2 * r ?= QDen x)%Z with
  | Lt => f
  | Gt => (f + 1)%Z
  | Eq => if Z.even f then f else (f + 1)%Z
  end.

Definition micro : Q := 1 # 1000000.          (* 1e-6 *)

Definition datetime : Type := Q.

Definition Qlt_bool (x y : Q) : bool := negb (Qle_bool y x).

(** What a key of the report holds: an array (cpu, dram) or a scalar. *)
Inductive pyobj : Type :=
| Arr (a : list float64)
| Num (x : float64).

(** A Python dict, in insertion order. *)
Definition dict : Type := list (string * pyobj).

Fixpoint get (d : dict) (k : string) : option pyobj :=
  match d with
  | [] => None
  | (k', v) :: d' => if (k' =? k)%string then Some v else get d' k
  end.

(** [d[k] = v]: in place when the key is there, at the end otherwise. *)
Fixpoint set (d : dict) (k : string) (v : pyobj) : dict :=
  match d with
  | [] => [(k, v)]
  | (k', v') :: d' =>
      if (k' =? k)%string then (k, v) :: d' else (k', v') :: set d' k v
  end.

Definition keys (d : dict) : list string := map fst d.
Definition values (d : dict) : list pyobj := map snd d.

(** [np.sum(data.get(k))]: the sum of an array, a scalar as it is. *)
Definition np_sum (o : option pyobj) : outcome pyobj :=
  match o with
  | Some (Arr a) => Ok (Num (Np.sum a))
  | Some (Num x) => Ok (Num x)
  | None => Raise TypeError
  end.

(** An operand of [+] taken from [data.get(k)]: [None] does not add. *)
Definition operand (o : option pyobj) : outcome pyobj :=
  match o with
  | Some v => Ok v
  | None => Raise TypeError
  end.

(** [u + v] in numpy: elementwise, a scalar or a one-element array being
    broadcast; arrays of other unequal lengths do not add. *)
Definition add (u v : pyobj) : outcome pyobj :=
  match u, v with
  | Num x, Num y => Ok (Num (fadd x y))
  | Num x, Arr b => Ok (Arr (map (fadd x) b))
  | Arr a, Num y => Ok (Arr (map (fun x => fadd x y) a))
  | Arr a, Arr b =>
      if (List.length a =? List.length b)%nat
      then Ok (Arr (map (fun p => fadd (fst p) (snd p)) (combine a b)))
      else match a, b with
           | [x], _ => Ok (Arr (map (fadd x) b))
           | _, [y] => Ok (Arr (map (fun x => fadd x y) a))
           | _, _ => Raise ValueError
           end
  end.

(** Line 174:
    [data["total"] = np.sum(cpu) + np.sum(dram) + data.get("disk") + data.get("gpu")] *)
Definition with_total (data : dict) : outcome dict :=
  cpu <- np_sum (get data "cpu") ;;
  dram <- np_sum (get data "dram") ;;
  disk <- operand (get data "disk") ;;
  gpu <- operand (get data "gpu") ;;
  s <- add cpu dram ;;
  s <- add s disk ;;
  total <- add s gpu ;;
  Ok (set data "total" total).

Fixpoint map_m {A B : Type} (f : A -> outcome B) (l : list A) : outcome (list B) :=
  match l with
  | [] => Ok []
  | a :: l' => b <- f a ;; bs <- map_m f l' ;; Ok (b :: bs)
  end.

(** What is handed to [plt.bar], with the title of the figure. *)
Record bar_chart : Type := {
  bar_keys : list string;
  bar_values : list float64;
  title : pyvalue
}.

(** [np.array(x) * 1e-6] for a counter field of the result; [None] does
    not multiply. *)
Definition scaled (x : option (list Q)) : outcome (list float64) :=
  match x with
  | Some l => Ok (map (fun x => Fin (x * micro)) l)
  | None => Raise TypeError
  end.

(** * The methods that depend on the host *)

Section Host.

(** The offset of local time from UTC, in seconds, at an epoch second. *)
Variable utcoffset : Z -> Z.

(** Whether [float()] of this numpy still converts an array of one
    element (it raises [TypeError] on current versions). *)
Variable numpy_legacy : bool.

(** ** The window of a closed session *)

(** The offset in force at [t], looked up at the second of the rounded
    instant. *)
Definition offset_at (t : Q) : Z :=
  utcoffset (round_half_even (t * 1000000) / 1000000)%Z.

Definition fromtimestamp (t : Q) : datetime :=
  (round_half_even (t * 1000000) # 1000000) + inject_Z (offset_at t).

Definition meter_start (r : Result.t) : datetime :=
  fromtimestamp (Result.timestamp r).

Definition meter_end (r : Result.t) : datetime :=
  fromtimestamp (Result.timestamp r + Result.duration r * micro).

(** [(t >= meter_start) & (t < meter_end)] *)
Definition in_window (r : Result.t) (t : datetime) : bool :=
  Qle_bool (meter_start r) t && Qlt_bool t (meter_end r).

(** [df[(df.index >= meter_start) & (df.index < meter_end)]], for a frame
    whose rows carry their instant in [ts]. *)
Definition filtered_df {row : Type} (ts : row -> datetime) (r : Result.t)
    (df : list row) : list row :=
  filter (fun x => in_window r (ts x)) df.

(** ** The estimators *)

Definition tot_bytes (r : Result.t) (df : list disk_row) : Z :=
  sum_int64
    (map Operation
       (filter (fun x => contains "python" (ByteSize x)) (filtered_df d_index r df))).

Definition disk_active_time (self : EnergyMeter) (r : Result.t)
    (df : list disk_row) : float64 :=
  fdiv (Fin (inject_Z (tot_bytes r df))) (Fin (disk_avg_speed self)).

Definition disk_idle_time (self : EnergyMeter) (r : Result.t)
    (df : list disk_row) : float64 :=
  fsub (Fin (Result.duration r * micro)) (disk_active_time self r df).

(** On a log without a data row the columns have no numeric type and the
    sum is the Python integer 0, whose division by a zero speed raises;
    with a data row the sum is a numpy integer, whose division does not. *)
Definition division_guard (self : EnergyMeter) (df : list disk_row) : outcome unit :=
  match df with
  | [] => if Qzero (disk_avg_speed self) then Raise ZeroDivisionError else Ok tt
  | _ :: _ => Ok tt
  end.

Definition get_total_jules_disk (fs : filesystem) (self : EnergyMeter)
    (filename : string) : outcome float64 :=
  df <- read_csv fs filename ;;
  r <- meter_result self ;;
  df <- match df with
        | DiskStats rows => Ok rows
        | GpuStats _ => Raise (KeyError "ByteSize")
        end ;;
  _ <- division_guard self df ;;
  Ok (fadd (fmul (disk_active_time self r df) (Fin (disk_active_power self)))
           (fmul (disk_idle_time self r df) (Fin (disk_idle_power self)))).

Definition get_total_jules_cpu (self : EnergyMeter) : outcome (list float64) :=
  r <- meter_result self ;;
  scaled (Result.pkg r).

Definition get_total_jules_dram (self : EnergyMeter) : outcome (list float64) :=
  r <- meter_result self ;;
  scaled (Result.dram r).

Definition get_total_jules_gpu (fs : filesystem) (self : EnergyMeter)
    (filename : string) : outcome float64 :=
  df <- read_csv fs filename ;;
  df <- match df with
        | GpuStats rows => Ok rows
        | DiskStats _ => Raise (AttributeError "timestamp")
        end ;;
  r <- meter_result self ;;
  let mean_p := mean (map power_usage (filtered_df g_timestamp r df)) in
  Ok (fmul (fmul mean_p (Fin (Result.duration r))) (Fin micro)).

(** ** The report *)

Definition get_total_jules_per_component (fs : filesystem) (self : EnergyMeter)
    (foldername : string) : outcome dict :=
  cpu <- get_total_jules_cpu self ;;
  dram <- get_total_jules_dram self ;;
  gpu <- get_total_jules_gpu fs self (foldername ++ "/gpu_stats.csv") ;;
  let gpu := if isnan gpu then Fin 0 else gpu in
  disk <- get_total_jules_disk fs self (foldername ++ "/disk_stats.csv") ;;
  Ok [("cpu", Arr cpu); ("dram", Arr dram); ("gpu", Num gpu); ("disk", Num disk)].

(** [float(val)]: a scalar converts; an array of one element converts on
    a legacy numpy only; no other array does. *)
Definition float_ (v : pyobj) : outcome float64 :=
  match v with
  | Num x => Ok x
  | Arr [x] => if numpy_legacy then Ok x else Raise TypeError
  | Arr _ => Raise TypeError
  end.

Definition plot_total_jules_per_component (fs : filesystem) (self : EnergyMeter)
    (foldername : string) : outcome bar_chart :=
  data <- get_total_jules_per_component fs self foldername ;;
  data <- with_total data ;;
  values <- map_m float_ (values data) ;;
  match meter self with
  | None => Raise (AttributeError "label")
  | Some m =>
      Ok {| bar_keys := keys data; bar_values := values; title := Measurement.label m |}
  end.

(** * Properties *)

(** ** Arithmetic on float64 values *)

Lemma feq_refl x : x =f= x.
Proof. destruct x; simpl; auto. reflexivity. Qed.

Lemma feq_sym x y : x =f= y -> y =f= x.
Proof. destruct x, y; simpl; auto. intros H; symmetry; exact H. Qed.

Lemma feq_trans x y z : x =f= y -> y =f= z -> x =f= z.
Proof.
  destruct x, y, z; simpl; try tauto; try congruence.
  intros H1 H2. rewrite H1. exact H2.
Qed.

Lemma fadd_comm x y : fadd x y =f= fadd y x.
Proof.
  destruct x as [a|[]|], y as [b|[]|]; simpl; auto. apply Qplus_comm.
Qed.

Lemma fadd_assoc x y z : fadd (fadd x y) z =f= fadd x (fadd y z).
Proof.
  destruct x as [a|[]|], y as [b|[]|], z as [c|[]|]; simpl; auto.
  symmetry. apply Qplus_assoc.
Qed.

Lemma fadd_feq x x' y y' : x =f= x' -> y =f= y' -> fadd x y =f= fadd x' y'.
Proof.
  destruct x as [a|[]|], x' as [a'|[]|]; simpl; try tauto; try discriminate;
    destruct y as [b|[]|], y' as [b'|[]|]; simpl; try tauto; try discriminate.
  intros Ha Hb. rewrite Ha, Hb. reflexivity.
Qed.

(** Swapping the last two terms of a sum of three. *)
Lemma fadd_swap x y z : fadd (fadd x y) z =f= fadd (fadd x z) y.
Proof.
  eapply feq_trans; [apply fadd_assoc|].
  eapply feq_trans; [apply fadd_feq; [apply feq_refl | apply fadd_comm]|].
  apply feq_sym, fadd_assoc.
Qed.

Lemma fadd_0_l x : fadd (Fin 0) x =f= x.
Proof. destruct x as [a|[]|]; simpl; auto. ring. Qed.

Lemma fadd_0_r x : fadd x (Fin 0) =f= x.
Proof. destruct x as [a|[]|]; simpl; auto. ring. Qed.

(** [np.sum] adds up every element: it is the sum taken from the right. *)
Lemma fold_left_fadd l : forall acc,
  fold_left fadd l acc =f= fadd acc (fold_right fadd (Fin 0) l).
Proof.
  induction l as [|x l IH]; intros acc; simpl.
  - apply feq_sym, fadd_0_r.
  - eapply feq_trans; [apply IH|]. apply fadd_assoc.
Qed.

Lemma sum_fold_right l : Np.sum l =f= fold_right fadd (Fin 0) l.
Proof.
  unfold Np.sum. eapply feq_trans; [apply fold_left_fadd|]. apply fadd_0_l.
Qed.

Lemma Qzero_spec q : Qzero q = true <-> q == 0.
Proof.
  unfold Qzero, Qeq. simpl. rewrite Z.eqb_eq. lia.
Qed.

Lemma Qzero_false q : Qzero q = false <-> ~ q == 0.
Proof.
  rewrite <- Qzero_spec. destruct (Qzero q); split; congruence.
Qed.

Lemma Qlt_bool_iff x y : Qlt_bool x y = true <-> x < y.
Proof.
  unfold Qlt_bool. rewrite negb_true_iff.
  split.
  - intros H. apply Qnot_le_lt. intros Hle.
    apply Qle_bool_iff in Hle. congruence.
  - intros H. destruct (Qle_bool y x) eqn:E; auto.
    apply Qle_bool_iff in E. exfalso. exact (Qlt_not_le _ _ H E).
Qed.

Lemma Qle_bool_false x y : Qle_bool x y = false <-> y < x.
Proof.
  rewrite <- Qlt_bool_iff. unfold Qlt_bool. rewrite negb_true_iff. tauto.
Qed.

(** ** Rounding *)

Lemma round_half_even_near x :
  x - (1 # 2) <= inject_Z (round_half_even x) /\
  inject_Z (round_half_even x) <= x + (1 # 2).
Proof.
  destruct x as [n d]. unfold round_half_even. cbn [Qnum Qden].
  pose proof (Z.div_mod n (Z.pos d) ltac:(lia)) as Hdm.
  pose proof (Z.mod_pos_bound n (Z.pos d) ltac:(lia)) as Hr.
  set (f := (n / Z.pos d)%Z) in *. set (r := (n mod Z.pos d)%Z) in *.
  assert (forall z : Z,
             (2 * n - Z.pos d <= 2 * z * Z.pos d)%Z ->
             (2 * z * Z.pos d <= 2 * n + Z.pos d)%Z ->
             (n # d) - (1 # 2) <= inject_Z z /\ inject_Z z <= (n # d) + (1 # 2)) as Hq.
  { intros z H1 H2. unfold Qle, Qminus, Qplus, Qopp, inject_Z. cbn.
    rewrite ?Pos2Z.inj_mul. change (Z.neg d) with (- Z.pos d)%Z. split; lia. }
  clearbody f r.
  destruct (2 * r ?= Z.pos d)%Z eqn:E.
  - apply Z.compare_eq in E. destruct (Z.even f); apply Hq; lia.
  - rewrite Z.compare_lt_iff in E. apply Hq; lia.
  - rewrite Z.compare_gt_iff in E. apply Hq; lia.
Qed.

(** What [fromtimestamp] returns is a whole number of microseconds. *)
Lemma fromtimestamp_microseconds t :
  fromtimestamp t ==
  (round_half_even (t * 1000000) + 1000000 * offset_at t) # 1000000.
Proof.
  unfold fromtimestamp.
  set (z := round_half_even (t * 1000000)). set (o := offset_at t).
  unfold Qeq, Qplus, inject_Z. cbn [Qnum Qden]. lia.
Qed.

(** ** The window *)

Lemma in_window_iff r t :
  in_window r t = true <-> meter_start r <= t /\ t < meter_end r.
Proof.
  unfold in_window. rewrite andb_true_iff, Qle_bool_iff, Qlt_bool_iff. tauto.
Qed.

Lemma filtered_df_In {row : Type} (ts : row -> datetime) r (df : list row) x :
  In x (filtered_df ts r df) <->
  In x df /\ meter_start r <= ts x /\ ts x < meter_end r.
Proof.
  unfold filtered_df. rewrite filter_In, in_window_iff. tauto.
Qed.

(** ** Results *)

Lemma bind_Ok {A B : Type} (c : outcome A) (k : A -> outcome B) b :
  bind c k = Ok b -> exists a, c = Ok a /\ k a = Ok b.
Proof.
  destruct c as [a|e]; simpl; [eauto | discriminate].
Qed.

Tactic Notation "inv_bind" hyp(H) "as" ident(a) ident(Ha) :=
  apply bind_Ok in H; destruct H as (a & Ha & H).

Lemma meter_result_closed self r :
  meter_result self = Ok r <->
  exists m, meter self = Some m /\ Measurement.result m = Some r.
Proof.
  unfold meter_result. split.
  - destruct (meter self) as [m|]; [|discriminate].
    destruct (Measurement.result m) as [r'|] eqn:E; [|discriminate].
    intros [= <-]. eauto.
  - intros (m & -> & ->). reflexivity.
Qed.

(** ** Session controller *)

Lemma init_meter rapl speed active idle lbl self :
  init rapl speed active idle lbl = Ok self -> meter self = None.
Proof.
  unfold init. destruct rapl; simpl; [|discriminate]. intros [= <-]. reflexivity.
Qed.

Lemma end_never_begun now self :
  meter self = None -> end_ now self = Raise (AttributeError "end").
Proof.
  unfold end_. intros ->. reflexivity.
Qed.

(** Calls other than [begin] leave a meter that was never begun as it is. *)
Lemma run_never_begun calls self :
  forallb (fun c => negb (is_begin c)) calls = true ->
  meter self = None ->
  run calls self = self.
Proof.
  revert self. induction calls as [|c calls IH]; intros self Hc Hm; [reflexivity|].
  simpl in Hc. apply andb_true_iff in Hc as [Hb Hcs].
  destruct c as [now|now]; [discriminate|].
  unfold run in *. simpl. unfold step at 2. simpl.
  rewrite (end_never_begun now self Hm). apply IH; assumption.
Qed.

(** C9, amended. On an instance on which no session was ever begun (as
    constructed, whatever calls other than [begin] were attempted on it
    since), [end()] always fails: the call reaches [self.meter.end()] with
    [self.meter] still [None] and raises Python's [AttributeError].  The
    class has no session-state error of its own. *)
Theorem end_without_begin_fails rapl speed active idle lbl self calls now :
  init rapl speed active idle lbl = Ok self ->
  forallb (fun c => negb (is_begin c)) calls = true ->
  end_ now (run calls self) = Raise (AttributeError "end").
Proof.
  intros Hinit Hcalls. apply init_meter in Hinit.
  rewrite (run_never_begun calls self Hcalls Hinit).
  apply end_never_begun. exact Hinit.
Qed.

(** C10. The label of a constructed meter is ["Meter"] when the argument
    is omitted, [None] or any other falsy value, and the argument itself
    when it is truthy; [begin] names the session it opens after it, and so
    does the result that [end] stores. *)
Theorem label_default_or_given rapl speed active idle lbl self :
  init rapl speed active idle lbl = Ok self ->
  let given := match lbl with Some v => v | None => PyNone end in
  (truthy given = false -> label self = PyStr "Meter") /\
  (truthy given = true -> label self = given) /\
  (forall now self', begin now self = Ok self' ->
     label self' = label self /\
     exists m, meter self' = Some m /\ Measurement.label m = label self) /\
  (forall now now' self' self'', begin now self = Ok self' ->
     end_ now' self' = Ok self'' ->
     exists r, meter_result self'' = Ok r /\ Result.label r = label self).
Proof.
  unfold init. destruct rapl; simpl; [|discriminate]. intros [= <-]. simpl.
  refine (conj _ (conj _ (conj _ _))).
  - intros ->. reflexivity.
  - intros ->. reflexivity.
  - intros now self' Hb. unfold begin in Hb. injection Hb as <-.
    split; [reflexivity|]. eexists. split; reflexivity.
  - intros now now' self' self'' Hb He.
    unfold begin in Hb. injection Hb as <-.
    unfold end_ in He. simpl in He. injection He as <-.
    eexists. split; reflexivity.
Qed.

(** C5, amended. [begin()] has no guard: whatever the state of the
    instance, it returns normally with [self.meter] replaced by a new
    measurement begun at the current reading and without a result; called
    on an open session, it drops the open window and starts a new one. *)
Theorem begin_always_restarts self now :
  exists self',
    begin now self = Ok self' /\
    meter self' =
      Some {| Measurement.label := label self;
              Measurement.snapshot := Some now;
              Measurement.result := None |} /\
    meter_result self' = Raise (AttributeError "timestamp").
Proof.
  eexists. split; [reflexivity|]. split; reflexivity.
Qed.

(** ** Windowed extraction *)

(** C2, amended. For both record streams and every closed session, the
    extraction keeps exactly the rows with
    [meter_start <= timestamp < meter_end], in their order, where
    [meter_start] and [meter_end] are the start and the start plus the
    duration of the session as [datetime.fromtimestamp] converts them:
    local wall-clock time rounded to the microsecond, a whole number of
    microseconds.  A row stamped exactly [meter_end] is never kept; a row
    stamped exactly [meter_start] is kept whenever
    [meter_start < meter_end]; when [meter_end <= meter_start] the window
    is empty. *)
Theorem window_is_half_open {row : Type} (ts : row -> datetime) r (df : list row) :
  (forall x, In x (filtered_df ts r df) <->
             In x df /\ meter_start r <= ts x /\ ts x < meter_end r) /\
  (forall x, ts x == meter_end r -> ~ In x (filtered_df ts r df)) /\
  (forall x, In x df -> ts x == meter_start r -> meter_start r < meter_end r ->
             In x (filtered_df ts r df)) /\
  (meter_end r <= meter_start r -> filtered_df ts r df = []) /\
  filtered_df ts r (filtered_df ts r df) = filtered_df ts r df /\
  (exists us_start us_end : Z,
     meter_start r == us_start # 1000000 /\ meter_end r == us_end # 1000000).
Proof.
  refine (conj _ (conj _ (conj _ (conj _ (conj _ _))))).
  - intros x. apply filtered_df_In.
  - intros x Hx Hin. apply filtered_df_In in Hin as (_ & _ & Hlt).
    rewrite Hx in Hlt. exact (Qlt_irrefl _ Hlt).
  - intros x Hin Hx Hd. apply filtered_df_In. split; [exact Hin|].
    rewrite Hx. split; [apply Qle_refl | exact Hd].
  - intros Hd. unfold filtered_df.
    induction df as [|y df IH]; [reflexivity|]. simpl.
    destruct (in_window r (ts y)) eqn:E; [|exact IH].
    apply in_window_iff in E as [H1 H2]. exfalso.
    assert (meter_start r < meter_end r) as H3 by (eapply Qle_lt_trans; eauto).
    exact (Qlt_not_le _ _ H3 Hd).
  - unfold filtered_df.
    induction df as [|y df IH]; [reflexivity|]. simpl.
    destruct (in_window r (ts y)) eqn:E; simpl; [rewrite E, IH; reflexivity | exact IH].
  - unfold meter_start, meter_end. do 2 eexists.
    split; apply fromtimestamp_microseconds.
Qed.

(** ** Storage estimator *)

Lemma tot_bytes_nil r : tot_bytes r [] = 0%Z.
Proof. reflexivity. Qed.

(** A log without a data row and a zero speed give the undefined active
    time; any other case passes the division. *)
Lemma division_guard_defined self r df :
  isnan (disk_active_time self r df) = false ->
  division_guard self df = Ok tt.
Proof.
  destruct df as [|x df]; [|reflexivity].
  unfold disk_active_time, division_guard. rewrite tot_bytes_nil. simpl.
  destruct (Qzero (disk_avg_speed self)); [discriminate | reflexivity].
Qed.

Lemma get_total_jules_disk_closed fs self filename r df :
  meter_result self = Ok r ->
  fs filename = Some (DiskStats df) ->
  division_guard self df = Ok tt ->
  get_total_jules_disk fs self filename =
    Ok (fadd (fmul (disk_active_time self r df) (Fin (disk_active_power self)))
             (fmul (fsub (Fin (Result.duration r * micro)) (disk_active_time self r df))
                   (Fin (disk_idle_power self)))).
Proof.
  intros Hr Hf Hg. unfold get_total_jules_disk, read_csv. rewrite Hf. simpl.
  rewrite Hr. simpl. rewrite Hg. reflexivity.
Qed.

Lemma disk_active_time_finite self r df :
  ~ disk_avg_speed self == 0 ->
  disk_active_time self r df =
    Fin (inject_Z (tot_bytes r df) / disk_avg_speed self).
Proof.
  intros H. unfold disk_active_time. simpl.
  apply Qzero_false in H. rewrite H. reflexivity.
Qed.

Lemma division_guard_speed self df :
  ~ disk_avg_speed self == 0 -> division_guard self df = Ok tt.
Proof.
  intros H. apply Qzero_false in H. unfold division_guard. rewrite H.
  destruct df; reflexivity.
Qed.

(** C3, amended. When the computed active time exceeds the duration of a
    closed session, the estimator neither clamps nor flags anything: the
    idle time is [duration - active_time], a negative number, and the
    value returned is
    [active_time * disk_active_power + idle_time * disk_idle_power]
    computed from it; with a positive idle power this is less than the
    energy of the active time alone. *)
Theorem disk_overrun_is_not_clamped fs self filename r df :
  meter_result self = Ok r ->
  fs filename = Some (DiskStats df) ->
  fltb (Fin (Result.duration r * micro)) (disk_active_time self r df) = true ->
  fltb (disk_idle_time self r df) (Fin 0) = true /\
  get_total_jules_disk fs self filename =
    Ok (fadd (fmul (disk_active_time self r df) (Fin (disk_active_power self)))
             (fmul (disk_idle_time self r df) (Fin (disk_idle_power self)))) /\
  (forall a, disk_active_time self r df = Fin a ->
     0 < disk_idle_power self ->
     exists e, get_total_jules_disk fs self filename = Ok (Fin e) /\
               e < a * disk_active_power self).
Proof.
  intros Hr Hf Hover.
  assert (division_guard self df = Ok tt) as Hg.
  { apply (division_guard_defined self r).
    destruct (disk_active_time self r df); [reflexivity | reflexivity | discriminate]. }
  rewrite (get_total_jules_disk_closed fs self filename r df Hr Hf Hg).
  unfold disk_idle_time.
  destruct (disk_active_time self r df) as [a|[]|] eqn:Ea; simpl in Hover;
    try discriminate.
  - apply negb_true_iff, Qle_bool_false in Hover.
    refine (conj _ (conj eq_refl _)).
    + simpl. apply negb_true_iff, Qle_bool_false. lra.
    + intros a' [= <-] Hidle. simpl. eexists. split; [reflexivity|].
      assert ((Result.duration r * micro + - a) * disk_idle_power self < 0) as Hneg.
      { setoid_replace ((Result.duration r * micro + - a) * disk_idle_power self)
          with (- ((a - Result.duration r * micro) * disk_idle_power self)) by ring.
        assert (0 < (a - Result.duration r * micro) * disk_idle_power self) as Hpos
          by (apply Qmult_lt_0_compat; lra).
        lra. }
      lra.
  - refine (conj eq_refl (conj eq_refl _)). intros a [=].
Qed.

(** C8. For a closed session whose computed active time does not exceed
    the duration, the estimator returns
    [active_time * disk_active_power + (duration - active_time) * disk_idle_power],
    where [active_time] is [tot_bytes / disk_avg_speed]; with no byte
    transferred this is [duration * disk_idle_power]. *)
Theorem disk_energy_formula fs self filename r df :
  meter_result self = Ok r ->
  fs filename = Some (DiskStats df) ->
  fleb (disk_active_time self r df) (Fin (Result.duration r * micro)) = true ->
  let duration := Result.duration r * micro in
  exists e,
    get_total_jules_disk fs self filename = Ok e /\
    e = fadd (fmul (disk_active_time self r df) (Fin (disk_active_power self)))
             (fmul (fsub (Fin duration) (disk_active_time self r df))
                   (Fin (disk_idle_power self))) /\
    (~ disk_avg_speed self == 0 ->
       let active_time := inject_Z (tot_bytes r df) / disk_avg_speed self in
       disk_active_time self r df = Fin active_time /\
       e =f= Fin (active_time * disk_active_power self
                  + (duration - active_time) * disk_idle_power self)) /\
    (tot_bytes r df = 0%Z -> e =f= Fin (duration * disk_idle_power self)).
Proof.
  intros Hr Hf Hle duration.
  assert (division_guard self df = Ok tt) as Hg.
  { apply (division_guard_defined self r).
    destruct (disk_active_time self r df); [reflexivity | reflexivity | discriminate]. }
  rewrite (get_total_jules_disk_closed fs self filename r df Hr Hf Hg).
  eexists. split; [reflexivity|]. split; [reflexivity|]. split.
  - intros Hspeed. cbv zeta.
    rewrite (disk_active_time_finite self r df Hspeed).
    split; [reflexivity|]. simpl. reflexivity.
  - intros Hz. unfold disk_active_time in *. rewrite Hz in *.
    simpl in Hle |- *.
    destruct (Qzero (disk_avg_speed self)); [discriminate|].
    simpl. unfold duration, Qdiv. ring.
Qed.

(** ** Accelerator estimator and report *)

Lemma get_total_jules_gpu_closed fs self filename r df :
  meter_result self = Ok r ->
  fs filename = Some (GpuStats df) ->
  get_total_jules_gpu fs self filename =
    Ok (fmul (fmul (mean (map power_usage (filtered_df g_timestamp r df)))
                   (Fin (Result.duration r)))
             (Fin micro)).
Proof.
  intros Hr Hf. unfold get_total_jules_gpu, read_csv. rewrite Hf. simpl.
  rewrite Hr. reflexivity.
Qed.

(** The value stored under [gpu] is not [nan]. *)
Lemma gpu_value_not_nan gpu : isnan (if isnan gpu then Fin 0 else gpu) = false.
Proof. destruct gpu; reflexivity. Qed.

Lemma scaled_Some x cpu :
  scaled x = Ok cpu ->
  exists l, x = Some l /\ cpu = map (fun q => Fin (q * micro)) l.
Proof.
  destruct x as [l|]; simpl; [|discriminate]. intros [= <-]. eauto.
Qed.

(** The shape of every report: the dict literal of the source. *)
Lemma report_shape fs self foldername data :
  get_total_jules_per_component fs self foldername = Ok data ->
  exists r pkg dram gpu disk,
    meter_result self = Ok r /\
    Result.pkg r = Some pkg /\
    Result.dram r = Some dram /\
    isnan gpu = false /\
    get_total_jules_disk fs self (foldername ++ "/disk_stats.csv") = Ok disk /\
    data = [("cpu", Arr (map (fun q => Fin (q * micro)) pkg));
            ("dram", Arr (map (fun q => Fin (q * micro)) dram));
            ("gpu", Num gpu); ("disk", Num disk)].
Proof.
  unfold get_total_jules_per_component, get_total_jules_cpu, get_total_jules_dram.
  intros H.
  inv_bind H as cpu Hcpu. inv_bind Hcpu as r Hr.
  inv_bind H as dram Hdram. inv_bind Hdram as r' Hr'.
  inv_bind H as gpu Hgpu. inv_bind H as disk Hdisk. injection H as <-.
  rewrite Hr in Hr'. injection Hr' as <-.
  apply scaled_Some in Hcpu as (pkg & Hpkg & ->).
  apply scaled_Some in Hdram as (dr & Hdr & ->).
  exists r, pkg, dr. eexists. exists disk.
  repeat split; try assumption. apply gpu_value_not_nan.
Qed.

Lemma report_closed fs self foldername r pkg dram :
  meter_result self = Ok r ->
  Result.pkg r = Some pkg ->
  Result.dram r = Some dram ->
  get_total_jules_per_component fs self foldername =
    (gpu <- get_total_jules_gpu fs self (foldername ++ "/gpu_stats.csv") ;;
     disk <- get_total_jules_disk fs self (foldername ++ "/disk_stats.csv") ;;
     Ok [("cpu", Arr (map (fun q => Fin (q * micro)) pkg));
         ("dram", Arr (map (fun q => Fin (q * micro)) dram));
         ("gpu", Num (if isnan gpu then Fin 0 else gpu));
         ("disk", Num disk)]).
Proof.
  intros Hr Hp Hd.
  unfold get_total_jules_per_component, get_total_jules_cpu, get_total_jules_dram.
  rewrite Hr. cbn [bind]. rewrite Hp, Hd. reflexivity.
Qed.

(** C4. For a closed session whose accelerator window is empty, the
    estimator returns [nan] (the undefined mean, not zero) and the report
    stores the number 0 under [gpu]; the accelerator step raises nothing:
    report generation returns a report whenever the other three
    estimators return, and fails only as they do. *)
Theorem empty_gpu_window_counts_zero fs self foldername r df :
  meter_result self = Ok r ->
  fs (foldername ++ "/gpu_stats.csv") = Some (GpuStats df) ->
  filtered_df g_timestamp r df = [] ->
  get_total_jules_gpu fs self (foldername ++ "/gpu_stats.csv") = Ok NaN /\
  get_total_jules_per_component fs self foldername =
    (cpu <- get_total_jules_cpu self ;;
     dram <- get_total_jules_dram self ;;
     disk <- get_total_jules_disk fs self (foldername ++ "/disk_stats.csv") ;;
     Ok [("cpu", Arr cpu); ("dram", Arr dram); ("gpu", Num (Fin 0)); ("disk", Num disk)]) /\
  (forall cpu dram disk,
     get_total_jules_cpu self = Ok cpu ->
     get_total_jules_dram self = Ok dram ->
     get_total_jules_disk fs self (foldername ++ "/disk_stats.csv") = Ok disk ->
     exists data,
       get_total_jules_per_component fs self foldername = Ok data /\
       get data "gpu" = Some (Num (Fin 0))).
Proof.
  intros Hr Hf Hempty.
  assert (get_total_jules_gpu fs self (foldername ++ "/gpu_stats.csv") = Ok NaN) as Hg.
  { rewrite (get_total_jules_gpu_closed fs self _ r df Hr Hf), Hempty. reflexivity. }
  assert (get_total_jules_per_component fs self foldername =
    (cpu <- get_total_jules_cpu self ;;
     dram <- get_total_jules_dram self ;;
     disk <- get_total_jules_disk fs self (foldername ++ "/disk_stats.csv") ;;
     Ok [("cpu", Arr cpu); ("dram", Arr dram); ("gpu", Num (Fin 0)); ("disk", Num disk)]))
    as Hrep.
  { unfold get_total_jules_per_component. rewrite Hg.
    destruct (get_total_jules_cpu self) as [cpu|e]; [|reflexivity].
    destruct (get_total_jules_dram self) as [dram|e]; reflexivity. }
  refine (conj Hg (conj Hrep _)).
  intros cpu dram disk Hc Hd Hk. rewrite Hrep, Hc, Hd, Hk. simpl.
  eexists. split; reflexivity.
Qed.

Lemma get_total_jules_disk_inv fs self filename e :
  get_total_jules_disk fs self filename = Ok e ->
  exists r df,
    meter_result self = Ok r /\
    fs filename = Some (DiskStats df) /\
    e = fadd (fmul (disk_active_time self r df) (Fin (disk_active_power self)))
             (fmul (disk_idle_time self r df) (Fin (disk_idle_power self))).
Proof.
  unfold get_total_jules_disk, read_csv. intros H.
  inv_bind H as df Hdf. inv_bind H as r Hr. inv_bind H as rows Hrows.
  inv_bind H as u Hu. injection H as <-.
  destruct (fs filename) as [[g|d]|]; try discriminate;
    injection Hdf as <-; [discriminate|].
  injection Hrows as <-. exists r, d. auto.
Qed.

Lemma with_total_shape cpu dram gpu disk :
  with_total [("cpu", Arr cpu); ("dram", Arr dram); ("gpu", Num gpu); ("disk", Num disk)]
  = Ok [("cpu", Arr cpu); ("dram", Arr dram); ("gpu", Num gpu); ("disk", Num disk);
        ("total", Num (fadd (fadd (fadd (Np.sum cpu) (Np.sum dram)) disk) gpu))].
Proof. reflexivity. Qed.

(** C6, amended. Every report returned by aggregation has exactly the four
    keys cpu, dram, gpu and disk, in this order: cpu and dram hold one
    finite joule value per socket, gpu a number that is not [nan] (0 when
    the mean is undefined), disk the value of the storage estimator as it
    is.  The key total is not in it; it is added, as a fifth key, by the
    plotting method. *)
Theorem report_has_four_components fs self foldername data :
  get_total_jules_per_component fs self foldername = Ok data ->
  keys data = ["cpu"; "dram"; "gpu"; "disk"] /\
  get data "total" = None /\
  (exists r pkg dram_counters cpu dram gpu disk,
     meter_result self = Ok r /\
     Result.pkg r = Some pkg /\
     Result.dram r = Some dram_counters /\
     get data "cpu" = Some (Arr cpu) /\
     List.length cpu = List.length pkg /\ forallb isfinite cpu = true /\
     get data "dram" = Some (Arr dram) /\
     List.length dram = List.length dram_counters /\ forallb isfinite dram = true /\
     get data "gpu" = Some (Num gpu) /\ isnan gpu = false /\
     get data "disk" = Some (Num disk) /\
     get_total_jules_disk fs self (foldername ++ "/disk_stats.csv") = Ok disk) /\
  (exists data',
     with_total data = Ok data' /\
     keys data' = ["cpu"; "dram"; "gpu"; "disk"; "total"]).
Proof.
  intros H.
  destruct (report_shape _ _ _ _ H)
    as (r & pkg & dram & gpu & disk & Hr & Hpkg & Hdram & Hgpu & Hdisk & ->).
  refine (conj eq_refl (conj eq_refl (conj _ _))).
  - exists r, pkg, dram. do 2 eexists. exists gpu, disk.
    assert (forall l, forallb isfinite (map (fun q => Fin (q * micro)) l) = true) as Hfin.
    { induction l; simpl; auto. }
    repeat split; try assumption; try reflexivity;
      try apply length_map; try apply Hfin.
  - rewrite with_total_shape. eexists. split; reflexivity.
Qed.

(** C1. For every report that aggregation returns, the total that line 174
    stores in it equals the sum of all the values of the cpu array, plus
    the sum of all the values of the dram array, plus the gpu value, plus
    the disk value. *)
Theorem total_is_sum_of_components fs self foldername data :
  get_total_jules_per_component fs self foldername = Ok data ->
  exists data' cpu dram gpu disk total,
    with_total data = Ok data' /\
    get data' "cpu" = Some (Arr cpu) /\
    get data' "dram" = Some (Arr dram) /\
    get data' "gpu" = Some (Num gpu) /\
    get data' "disk" = Some (Num disk) /\
    get data' "total" = Some (Num total) /\
    total =f= fadd (fadd (fadd (fold_right fadd (Fin 0) cpu)
                               (fold_right fadd (Fin 0) dram)) gpu) disk.
Proof.
  intros H.
  destruct (report_shape _ _ _ _ H)
    as (r & pkg & dram & gpu & disk & _ & _ & _ & _ & _ & ->).
  rewrite with_total_shape.
  eexists. do 2 eexists. exists gpu, disk. eexists.
  split; [reflexivity|].
  repeat (split; [reflexivity|]).
  eapply feq_trans; [apply fadd_swap|].
  apply fadd_feq; [|apply feq_refl].
  apply fadd_feq; [|apply feq_refl].
  apply fadd_feq; apply sum_fold_right.
Qed.

(** ** Missing logs and empty windows *)

(** C7, amended. For a closed session whose counters were read, a report
    is returned whenever both logs are there (a storage log without any
    data row needs a throughput constant that is not zero), also when a
    window is empty: an empty accelerator window counts 0 joules, an empty
    storage window counts no byte, the disk being idle for the whole
    duration.  A log that is missing makes report generation raise
    [FileNotFoundError] for the report as a whole: nothing is returned
    for the other components. *)
Theorem report_needs_both_logs fs self foldername r pkg dram :
  meter_result self = Ok r ->
  Result.pkg r = Some pkg ->
  Result.dram r = Some dram ->
  let gpu_csv := foldername ++ "/gpu_stats.csv" in
  let disk_csv := foldername ++ "/disk_stats.csv" in
  (fs gpu_csv = None ->
   get_total_jules_per_component fs self foldername
   = Raise (FileNotFoundError gpu_csv)) /\
  (forall g, fs gpu_csv = Some (GpuStats g) -> fs disk_csv = None ->
   get_total_jules_per_component fs self foldername
   = Raise (FileNotFoundError disk_csv)) /\
  (forall g d, fs gpu_csv = Some (GpuStats g) -> fs disk_csv = Some (DiskStats d) ->
   d <> [] \/ ~ disk_avg_speed self == 0 ->
   exists data,
     get_total_jules_per_component fs self foldername = Ok data /\
     (filtered_df g_timestamp r g = [] -> get data "gpu" = Some (Num (Fin 0))) /\
     (filtered_df d_index r d = [] ->
      tot_bytes r d = 0%Z /\
      (~ disk_avg_speed self == 0 ->
       exists e, get data "disk" = Some (Num (Fin e)) /\
                 e == Result.duration r * micro * disk_idle_power self))).
Proof.
  intros Hr Hp Hdr gpu_csv disk_csv.
  rewrite (report_closed fs self foldername r pkg dram Hr Hp Hdr).
  fold gpu_csv disk_csv.
  refine (conj _ (conj _ _)).
  - intros Hg. unfold get_total_jules_gpu, read_csv.
    rewrite Hg. reflexivity.
  - intros g Hg Hd.
    rewrite (get_total_jules_gpu_closed fs self _ r g Hr Hg). cbn [bind].
    unfold get_total_jules_disk, read_csv. rewrite Hd. reflexivity.
  - intros g d Hg Hd Hrows.
    assert (division_guard self d = Ok tt) as Hguard.
    { destruct Hrows as [Hne|Hs]; [|apply division_guard_speed, Hs].
      destruct d; [congruence | reflexivity]. }
    rewrite (get_total_jules_gpu_closed fs self _ r g Hr Hg). cbn [bind].
    rewrite (get_total_jules_disk_closed fs self _ r d Hr Hd Hguard). cbn [bind].
    eexists. split; [reflexivity|]. split.
    + intros ->. reflexivity.
    + intros Hempty.
      assert (tot_bytes r d = 0%Z) as Hz by (unfold tot_bytes; rewrite Hempty; reflexivity).
      split; [exact Hz|]. intros Hspeed.
      rewrite (disk_active_time_finite self r d Hspeed), Hz. simpl.
      eexists. split; [reflexivity|]. unfold Qdiv. ring.
Qed.

(** * Further properties of the estimators *)

(** ** The process filter of the storage estimator *)

Lemma prefix_iff p s :
  String.prefix p s = true <-> exists post, s = (p ++ post)%string.
Proof.
  revert s. induction p as [|a p IH]; intros s; simpl.
  - split; [intros _; exists s; reflexivity | intros _; destruct s; reflexivity].
  - destruct s as [|b s]; simpl.
    + split; [discriminate | intros [post H]; discriminate].
    + destruct (Ascii.ascii_dec a b) as [->|Hne].
      * rewrite IH. split; intros [post H]; exists post; congruence.
      * split; [discriminate | intros [post H]; congruence].
Qed.

(** X1. A row of the storage log passes the process filter exactly when
    its tag has the pattern as a substring, at any position. *)
Theorem contains_iff_substring pat s :
  contains pat s = true <-> exists pre post, s = (pre ++ pat ++ post)%string.
Proof.
  induction s as [|c s IH]; cbn [contains].
  - rewrite orb_false_r, prefix_iff. split.
    + intros [post H]. exists "", post. exact H.
    + intros (pre & post & H). destruct pre; [|discriminate].
      exists post. exact H.
  - rewrite orb_true_iff, prefix_iff, IH. split.
    + intros [[post H] | (pre & post & H)].
      * exists "", post. exact H.
      * exists (String c pre), post. simpl. congruence.
    + intros (pre & post & H). destruct pre as [|c' pre].
      * left. exists post. exact H.
      * right. exists pre, post. simpl in H. congruence.
Qed.

Lemma wrap64_in_range z :
  (- 2 ^ 63 <= z < 2 ^ 63)%Z -> wrap64 z = z.
Proof.
  intros H. unfold wrap64. rewrite Z.mod_small; lia.
Qed.

Lemma fold_wrap64_exact l :
  Forall (fun z => 0 <= z)%Z l ->
  forall acc, (0 <= acc)%Z ->
  (acc + fold_right Z.add 0 l < 2 ^ 63)%Z ->
  fold_left (fun a z => wrap64 (a + z)) l acc = (acc + fold_right Z.add 0 l)%Z.
Proof.
  induction 1 as [|z l Hz Hl IH]; intros acc Hacc Hsum; simpl in *.
  - lia.
  - assert (0 <= fold_right Z.add 0 l)%Z as Hnn.
    { clear -Hl. induction Hl; simpl; lia. }
    rewrite wrap64_in_range by lia.
    rewrite IH by lia. lia.
Qed.

(** X2. When the byte counts that pass both filters are not negative and
    their sum fits in a signed 64-bit integer, [tot_bytes] is exactly
    their sum: the wrap-around of the int64 column does not show. *)
Theorem tot_bytes_exact r df :
  let counted :=
    map Operation
      (filter (fun x => contains "python" (ByteSize x)) (filtered_df d_index r df)) in
  Forall (fun z => 0 <= z)%Z counted ->
  (fold_right Z.add 0 counted < 2 ^ 63)%Z ->
  tot_bytes r df = fold_right Z.add 0%Z counted.
Proof.
  intros counted Hnn Hfit. unfold tot_bytes, sum_int64. fold counted.
  rewrite (fold_wrap64_exact counted Hnn 0%Z); lia.
Qed.

(** ** Rows that do not count *)

Local Open Scope list_scope.

Lemma filtered_df_app {row : Type} (ts : row -> datetime) r (l1 l2 : list row) :
  filtered_df ts r (l1 ++ l2) = filtered_df ts r l1 ++ filtered_df ts r l2.
Proof. unfold filtered_df. apply filter_app. Qed.

Lemma filtered_df_skip {row : Type} (ts : row -> datetime) r (l1 l2 : list row) x :
  in_window r (ts x) = false ->
  filtered_df ts r (l1 ++ x :: l2) = filtered_df ts r (l1 ++ l2).
Proof.
  intros H. rewrite !filtered_df_app. unfold filtered_df at 2. simpl.
  rewrite H. reflexivity.
Qed.

(** X3. A sample of the accelerator log that the window test leaves out
    (stamped before [meter_start], or at or after [meter_end]), at any
    place in the log, does not change the accelerator estimate. *)
Theorem gpu_ignores_rows_outside_window fs fs' self filename r l1 x l2 :
  meter_result self = Ok r ->
  fs filename = Some (GpuStats (l1 ++ l2)) ->
  fs' filename = Some (GpuStats (l1 ++ x :: l2)) ->
  in_window r (g_timestamp x) = false ->
  get_total_jules_gpu fs' self filename = get_total_jules_gpu fs self filename.
Proof.
  intros Hr Hf Hf' Hout.
  rewrite (get_total_jules_gpu_closed fs' self filename r _ Hr Hf').
  rewrite (get_total_jules_gpu_closed fs self filename r _ Hr Hf).
  rewrite (filtered_df_skip g_timestamp r l1 l2 x Hout). reflexivity.
Qed.

(** X4. An event of the storage log that the window test leaves out, or
    whose tag does not contain "python", at any place in a log that has
    other rows, does not change the byte total nor the storage
    estimate. *)
Theorem disk_ignores_foreign_rows fs fs' self filename r l1 x l2 :
  meter_result self = Ok r ->
  fs filename = Some (DiskStats (l1 ++ l2)) ->
  fs' filename = Some (DiskStats (l1 ++ x :: l2)) ->
  l1 ++ l2 <> [] ->
  in_window r (d_index x) = false \/ contains "python" (ByteSize x) = false ->
  tot_bytes r (l1 ++ x :: l2) = tot_bytes r (l1 ++ l2) /\
  get_total_jules_disk fs' self filename = get_total_jules_disk fs self filename.
Proof.
  intros Hr Hf Hf' Hne Hout.
  assert (tot_bytes r (l1 ++ x :: l2) = tot_bytes r (l1 ++ l2)) as Hb.
  { unfold tot_bytes. f_equal. f_equal.
    destruct (in_window r (d_index x)) eqn:Hw.
    - destruct Hout as [Hout|Hout]; [discriminate|].
      rewrite !filtered_df_app, !filter_app. f_equal.
      unfold filtered_df at 1. simpl. rewrite Hw. simpl. rewrite Hout. reflexivity.
    - rewrite (filtered_df_skip d_index r l1 l2 x Hw). reflexivity. }
  split; [exact Hb|].
  assert (division_guard self (l1 ++ l2) = Ok tt) as G1
    by (destruct (l1 ++ l2); [congruence | reflexivity]).
  assert (division_guard self (l1 ++ x :: l2) = Ok tt) as G2
    by (destruct l1; reflexivity).
  rewrite (get_total_jules_disk_closed fs' self filename r _ Hr Hf' G2).
  rewrite (get_total_jules_disk_closed fs self filename r _ Hr Hf G1).
  unfold disk_active_time. rewrite Hb. reflexivity.
Qed.

(** ** Back-to-back sessions *)

(** X5. When the window of a session starts where the window of the
    previous one ends, no instant is in both windows, and (neither window
    ending before it starts) an instant is in the window that spans both
    exactly when it is in one of them: a sample stamped at the boundary is
    left out of the earlier window and counted by the later one when that
    is not empty. *)
Theorem adjacent_windows_partition r1 r2 r t :
  meter_start r2 == meter_end r1 ->
  meter_start r == meter_start r1 ->
  meter_end r == meter_end r2 ->
  meter_start r1 <= meter_end r1 ->
  meter_start r2 <= meter_end r2 ->
  in_window r1 t && in_window r2 t = false /\
  in_window r t = in_window r1 t || in_window r2 t /\
  (t == meter_end r1 -> in_window r1 t = false /\
     (meter_start r2 < meter_end r2 -> in_window r2 t = true)).
Proof.
  intros Hadj Hs He H1 H2.
  refine (conj _ (conj _ _)).
  - destruct (in_window r1 t) eqn:E1, (in_window r2 t) eqn:E2; try reflexivity.
    apply in_window_iff in E1, E2. lra.
  - destruct (in_window r t) eqn:E, (in_window r1 t) eqn:E1, (in_window r2 t) eqn:E2;
      try reflexivity; exfalso;
      repeat match goal with
             | H : in_window _ _ = true |- _ => apply in_window_iff in H
             end.
    + destruct (Qlt_le_dec t (meter_end r1)) as [Hlt|Hge].
      * assert (in_window r1 t = true) as C by (apply in_window_iff; lra). congruence.
      * assert (in_window r2 t = true) as C by (apply in_window_iff; lra). congruence.
    + assert (in_window r t = true) as C by (apply in_window_iff; lra). congruence.
    + assert (in_window r t = true) as C by (apply in_window_iff; lra). congruence.
    + assert (in_window r t = true) as C by (apply in_window_iff; lra). congruence.
  - intros Ht. split.
    + destruct (in_window r1 t) eqn:E1; [|reflexivity].
      apply in_window_iff in E1. lra.
    + intros Hpos. apply in_window_iff. lra.
Qed.

(** ** A throughput constant of zero *)

Lemma fadd_not_finite_l x y : isfinite x = false -> isfinite (fadd x y) = false.
Proof. destruct x as [a|[]|], y as [b|[]|]; simpl; congruence. Qed.

Lemma fadd_not_finite_r x y : isfinite y = false -> isfinite (fadd x y) = false.
Proof. destruct x as [a|[]|], y as [b|[]|]; simpl; congruence. Qed.

Lemma fmul_not_finite_l x y : isfinite x = false -> isfinite (fmul x y) = false.
Proof.
  destruct x as [a|s|], y as [b|t|]; simpl; try congruence.
  destruct (Qzero b); reflexivity.
Qed.

(** X8. Only the accelerator value is guarded against [nan].  For a closed
    session whose counters were read, with both logs readable and a
    throughput constant of zero: when the storage log has a data row, the
    storage estimate is [nan] or an infinity, aggregation still returns a
    report that carries it under [disk], and the total computed from that
    report is not finite either; when the storage log has no data row, the
    division raises [ZeroDivisionError] and no report is returned. *)
Theorem zero_speed_gives_non_finite_disk fs self foldername r pkg dram g d :
  meter_result self = Ok r ->
  Result.pkg r = Some pkg ->
  Result.dram r = Some dram ->
  fs (foldername ++ "/gpu_stats.csv")%string = Some (GpuStats g) ->
  fs (foldername ++ "/disk_stats.csv")%string = Some (DiskStats d) ->
  disk_avg_speed self == 0 ->
  (d <> [] ->
   exists data data' disk total,
     get_total_jules_per_component fs self foldername = Ok data /\
     get data "disk" = Some (Num disk) /\
     isfinite disk = false /\
     with_total data = Ok data' /\
     get data' "total" = Some (Num total) /\
     isfinite total = false) /\
  (d = [] ->
   get_total_jules_disk fs self (foldername ++ "/disk_stats.csv")%string
   = Raise ZeroDivisionError /\
   get_total_jules_per_component fs self foldername = Raise ZeroDivisionError).
Proof.
  intros Hr Hp Hdr Hg Hd Hspeed.
  rewrite (report_closed fs self foldername r pkg dram Hr Hp Hdr).
  rewrite (get_total_jules_gpu_closed fs self _ r g Hr Hg). cbn [bind].
  apply Qzero_spec in Hspeed.
  split.
  - intros Hne.
    assert (division_guard self d = Ok tt) as Hguard
      by (destruct d; [congruence | reflexivity]).
    rewrite (get_total_jules_disk_closed fs self _ r d Hr Hd Hguard). cbn [bind].
    eexists. eexists. eexists. eexists.
    split; [reflexivity|]. split; [reflexivity|].
    assert (isfinite (disk_active_time self r d) = false) as Ha.
    { unfold disk_active_time. simpl. rewrite Hspeed.
      destruct (Qzero (inject_Z (tot_bytes r d))); reflexivity. }
    assert (isfinite
              (fadd (fmul (disk_active_time self r d) (Fin (disk_active_power self)))
                    (fmul (fsub (Fin (Result.duration r * micro))
                                (disk_active_time self r d))
                          (Fin (disk_idle_power self)))) = false) as Hdisk.
    { apply fadd_not_finite_l, fmul_not_finite_l, Ha. }
    split; [exact Hdisk|].
    rewrite with_total_shape. split; [reflexivity|]. split; [reflexivity|].
    apply fadd_not_finite_l, fadd_not_finite_r, Hdisk.
  - intros ->.
    assert (get_total_jules_disk fs self (foldername ++ "/disk_stats.csv")%string
            = Raise ZeroDivisionError) as Hz.
    { unfold get_total_jules_disk, read_csv. rewrite Hd. cbn [bind].
      rewrite Hr. cbn [bind]. unfold division_guard. rewrite Hspeed. reflexivity. }
    split; [exact Hz|]. rewrite Hz. reflexivity.
Qed.

(** ** Counter deltas *)

Lemma sum_scaled_from l : forall acc,
  fold_left fadd (map (fun x => Fin (x * micro)) l) (Fin acc)
  =f= Fin (acc + fold_right Qplus 0 l * micro).
Proof.
  induction l as [|x l IH]; intros acc; simpl.
  - ring.
  - eapply feq_trans; [apply IH|]. simpl. ring.
Qed.

(** X9. The processor and memory estimators return one value per socket,
    and the sum of what they return is the sum of the counter deltas
    scaled from microjoules to joules. *)
Theorem counter_sum_is_scaled_delta_sum self cpu dram :
  get_total_jules_cpu self = Ok cpu ->
  get_total_jules_dram self = Ok dram ->
  exists r pkg_deltas dram_deltas,
    meter_result self = Ok r /\
    Result.pkg r = Some pkg_deltas /\
    Result.dram r = Some dram_deltas /\
    List.length cpu = List.length pkg_deltas /\
    List.length dram = List.length dram_deltas /\
    Np.sum cpu =f= Fin (fold_right Qplus 0 pkg_deltas * micro) /\
    Np.sum dram =f= Fin (fold_right Qplus 0 dram_deltas * micro).
Proof.
  unfold get_total_jules_cpu, get_total_jules_dram. intros Hc Hd.
  inv_bind Hc as r Hr. rewrite Hr in Hd. cbn [bind] in Hd.
  apply scaled_Some in Hc as (pk & Hpk & ->).
  apply scaled_Some in Hd as (dr & Hdr & ->).
  exists r, pk, dr.
  split; [exact Hr|]. split; [exact Hpk|]. split; [exact Hdr|].
  rewrite !length_map. split; [reflexivity|]. split; [reflexivity|].
  unfold Np.sum. split.
  - eapply feq_trans; [apply sum_scaled_from|]. simpl. ring.
  - eapply feq_trans; [apply sum_scaled_from|]. simpl. ring.
Qed.

(** ** Sessions that are not closed *)

(** X10. On an instance whose session was never begun, or was begun and
    not ended, every read of the session fails with an attribute error:
    the processor and memory estimators, report generation and plotting
    whatever the files are, and the accelerator and storage estimators
    when their log is there.  The log is read first: when it is missing,
    these two fail with the file error instead. *)
Theorem estimators_need_closed_session fs self foldername filename :
  meter self = None \/
  (exists m, meter self = Some m /\ Measurement.result m = None) ->
  raises_attribute_error (get_total_jules_cpu self) /\
  raises_attribute_error (get_total_jules_dram self) /\
  raises_attribute_error (get_total_jules_per_component fs self foldername) /\
  raises_attribute_error (plot_total_jules_per_component fs self foldername) /\
  (forall df, fs filename = Some (GpuStats df) ->
     raises_attribute_error (get_total_jules_gpu fs self filename)) /\
  (forall df, fs filename = Some df ->
     raises_attribute_error (get_total_jules_disk fs self filename)) /\
  (fs filename = None ->
     get_total_jules_gpu fs self filename = Raise (FileNotFoundError filename) /\
     get_total_jules_disk fs self filename = Raise (FileNotFoundError filename)).
Proof.
  intros Hopen.
  assert (exists attr, meter_result self = Raise (AttributeError attr)) as [attr Hr].
  { unfold meter_result. destruct Hopen as [-> | (m & -> & ->)]; eauto. }
  unfold raises_attribute_error, plot_total_jules_per_component,
    get_total_jules_per_component, get_total_jules_cpu, get_total_jules_dram,
    get_total_jules_gpu, get_total_jules_disk, read_csv.
  rewrite Hr. cbn [bind].
  refine (conj _ (conj _ (conj _ (conj _ (conj _ (conj _ _)))))); eauto.
  - intros df ->. cbn [bind]. eauto.
  - intros df ->. cbn [bind]. eauto.
  - intros ->. split; reflexivity.
Qed.

(** ** The bar chart *)

Lemma plot_shape fs self foldername cpu dram gpu disk :
  get_total_jules_per_component fs self foldername
  = Ok [("cpu", Arr cpu); ("dram", Arr dram); ("gpu", Num gpu); ("disk", Num disk)] ->
  plot_total_jules_per_component fs self foldername =
    (c <- float_ (Arr cpu) ;;
     d <- float_ (Arr dram) ;;
     match meter self with
     | None => Raise (AttributeError "label")
     | Some m =>
         Ok {| bar_keys := ["cpu"; "dram"; "gpu"; "disk"; "total"];
               bar_values :=
                 [c; d; gpu; disk;
                  fadd (fadd (fadd (Np.sum cpu) (Np.sum dram)) disk) gpu];
               title := Measurement.label m |}
     end).
Proof.
  intros Hrep. unfold plot_total_jules_per_component.
  rewrite Hrep. cbn [bind]. rewrite with_total_shape. cbn [bind].
  cbn [values map snd map_m].
  destruct (float_ (Arr cpu)) as [c|e]; cbn [bind]; [|reflexivity].
  destruct (float_ (Arr dram)) as [d|e]; cbn [bind]; reflexivity.
Qed.

(** X11. Plotting converts every value of the report with [float()].  On
    a current numpy no array converts, and plotting raises [TypeError]
    for every report that aggregation returns.  On a legacy numpy an array
    of one element converts: plotting returns a chart when the session
    has exactly one package counter and one memory counter, and raises
    [TypeError] otherwise (two sockets). *)
Theorem plot_needs_one_socket fs self foldername data :
  get_total_jules_per_component fs self foldername = Ok data ->
  exists r pkg dram,
    meter_result self = Ok r /\
    Result.pkg r = Some pkg /\
    Result.dram r = Some dram /\
    (numpy_legacy = false ->
     plot_total_jules_per_component fs self foldername = Raise TypeError) /\
    (numpy_legacy = true ->
     List.length pkg = 1%nat /\ List.length dram = 1%nat ->
     exists chart, plot_total_jules_per_component fs self foldername = Ok chart) /\
    (numpy_legacy = true ->
     List.length pkg <> 1%nat \/ List.length dram <> 1%nat ->
     plot_total_jules_per_component fs self foldername = Raise TypeError).
Proof.
  intros Hrep.
  destruct (report_shape _ _ _ _ Hrep)
    as (r & pkg & dram & gpu & disk & Hr & Hpkg & Hdram & _ & _ & ->).
  exists r, pkg, dram.
  split; [exact Hr|]. split; [exact Hpkg|]. split; [exact Hdram|].
  rewrite (plot_shape fs self foldername _ _ gpu disk Hrep).
  apply meter_result_closed in Hr as (m & Hm & _). rewrite Hm.
  clear Hrep Hpkg Hdram.
  destruct pkg as [|p [|p' ps]], dram as [|q [|q' qs]];
    cbn [map float_ bind List.length];
    (split; [intros ->|split; intros ->]); cbn [bind];
    try reflexivity;
    try (intros [H1 H2]; discriminate);
    try (intros [H|H]; congruence).
  intros _. eexists. reflexivity.
Qed.

(** X12. A chart that plotting returns has the five bars cpu, dram, gpu,
    disk and total, in this order; the total bar is the sum of the other
    four, and the title is the label of the measurement. *)
Theorem chart_total_is_sum_of_bars fs self foldername chart :
  plot_total_jules_per_component fs self foldername = Ok chart ->
  bar_keys chart = ["cpu"; "dram"; "gpu"; "disk"; "total"] /\
  (exists cpu dram gpu disk total,
     bar_values chart = [cpu; dram; gpu; disk; total] /\
     total =f= fadd (fadd (fadd cpu dram) gpu) disk) /\
  (exists m, meter self = Some m /\ title chart = Measurement.label m).
Proof.
  intros Hplot.
  assert (exists data, get_total_jules_per_component fs self foldername = Ok data)
    as [data Hrep].
  { unfold plot_total_jules_per_component in Hplot.
    destruct (get_total_jules_per_component fs self foldername); [eauto|discriminate]. }
  destruct (report_shape _ _ _ _ Hrep)
    as (r & pkg & dram & gpu & disk & Hr & _ & _ & _ & _ & ->).
  rewrite (plot_shape fs self foldername _ _ gpu disk Hrep) in Hplot.
  destruct pkg as [|c [|c' cs]]; try discriminate.
  destruct dram as [|d [|d' ds]];
    cbn [map float_ bind] in Hplot;
    destruct numpy_legacy; try discriminate.
  cbn [bind] in Hplot.
  destruct (meter self) as [m|]; [|discriminate].
  injection Hplot as <-. cbn [bar_keys bar_values title].
  split; [reflexivity|]. split.
  - do 5 eexists. split; [reflexivity|].
    unfold Np.sum.
    destruct gpu as [g|[]|], disk as [k|[]|]; simpl; auto; ring.
  - eexists. split; reflexivity.
Qed.

End Host.

(** * The properties at work on the sessions above *)

Lemma end_without_begin_fails_witness :
  end_ Demo.t1
    (run [End Demo.t0; End Demo.t1] (Demo.fresh (200000000 # 1) 6 1))
  = Raise (AttributeError "end").
Proof.
  apply (end_without_begin_fails true (200000000 # 1) 6 1 None
           (Demo.fresh (200000000 # 1) 6 1) [End Demo.t0; End Demo.t1] Demo.t1).
  - reflexivity.
  - reflexivity.
Defined.

(** C9 as stated fails: what [end()] raises on an instance never begun is
    an [AttributeError], not a session-state error. *)
Lemma end_raises_no_session_state_error :
  ~ (forall self now,
       meter self = None ->
       exists e, end_ now self = Raise e /\ class_name e = "SessionStateError").
Proof.
  intros H.
  destruct (H (Demo.fresh (200000000 # 1) 6 1) Demo.t0 eq_refl) as (e & He & Hc).
  injection He as <-. discriminate Hc.
Qed.

Lemma label_default_or_given_witness :
  label (Demo.fresh (200000000 # 1) 6 1) = PyStr "Meter".
Proof.
  apply (label_default_or_given true (200000000 # 1) 6 1 (Some (PyStr ""))
           (Demo.fresh (200000000 # 1) 6 1)).
  - reflexivity.
  - reflexivity.
Defined.

(** C5 as stated fails: a second [begin()] on an open session returns
    normally. *)
Lemma begin_twice_succeeds :
  ~ (forall self now now' self',
       begin now self = Ok self' -> exists e, begin now' self' = Raise e).
Proof.
  intros H.
  destruct (H (Demo.fresh (200000000 # 1) 6 1) Demo.t0 Demo.t1 _ eq_refl)
    as [e He].
  discriminate He.
Qed.

(** C2 as stated fails, twice.  On a host that keeps UTC, a session begun
    at 1000.0000004 s has its start rounded to 1000.000000 s, and a row
    stamped there, 400 ns before the start, is kept.  And in a session
    closed in the clock tick it was opened in, the window is empty and a
    row stamped exactly at the start is left out. *)
Lemma row_before_start_is_kept :
  (exists r x,
     meter_result Demo.closed_late = Ok r /\
     g_timestamp x < Result.timestamp r /\
     In x (filtered_df Demo.utc g_timestamp r [x])) /\
  (exists r x,
     meter_result Demo.closed_at_once = Ok r /\
     g_timestamp x == Result.timestamp r /\
     ~ In x (filtered_df Demo.utc g_timestamp r [x])).
Proof.
  split.
  - eexists. exists {| g_timestamp := 1000; power_usage := 50 |}.
    split; [reflexivity|]. split; [reflexivity|].
    vm_compute. left. reflexivity.
  - eexists. exists {| g_timestamp := 1000; power_usage := 50 |}.
    split; [reflexivity|]. split; [reflexivity|].
    vm_compute. intros [].
Qed.

Lemma window_is_half_open_witness :
  In {| g_timestamp := 1000; power_usage := 50 |}
     (filtered_df Demo.utc g_timestamp Demo.session Demo.gpu_log_busy).
Proof.
  refine (proj1 (proj2 (proj2
            (window_is_half_open Demo.utc g_timestamp Demo.session Demo.gpu_log_busy)))
            {| g_timestamp := 1000; power_usage := 50 |} _ _ _).
  - simpl. left. reflexivity.
  - vm_compute. reflexivity.
  - vm_compute. reflexivity.
Defined.

(** C3 as stated fails: with a throughput constant below the observed rate
    (800 MB in a window of 10 s at 50 MB/s: 16 s of activity), the
    estimator returns 16 * 6 + (10 - 16) * 20 = -24 joules, not the 96
    joules of an idle time clamped to zero. *)
Lemma disk_overrun_negative_energy :
  exists r e,
    meter_result Demo.meter50 = Ok r /\
    fltb (Fin (Result.duration r * micro))
         (disk_active_time Demo.utc Demo.meter50 r Demo.disk_log) = true /\
    get_total_jules_disk Demo.utc Demo.fs Demo.meter50 "logs/disk_stats.csv" = Ok e /\
    e =f= Fin (-24) /\
    fltb e (Fin 0) = true.
Proof.
  destruct (meter_result Demo.meter50) as [r|] eqn:E;
    [|vm_compute in E; discriminate].
  exists r. eexists. split; [reflexivity|].
  vm_compute in E. injection E as <-.
  split; [vm_compute; reflexivity|].
  split; [vm_compute; reflexivity|].
  split; vm_compute; reflexivity.
Qed.

Lemma disk_overrun_is_not_clamped_witness :
  fltb (disk_idle_time Demo.utc Demo.meter50 Demo.session Demo.disk_log) (Fin 0) = true.
Proof.
  apply (disk_overrun_is_not_clamped Demo.utc Demo.fs Demo.meter50
           "logs/disk_stats.csv" Demo.session Demo.disk_log).
  - reflexivity.
  - reflexivity.
  - vm_compute. reflexivity.
Defined.

Lemma disk_energy_formula_witness :
  exists e,
    get_total_jules_disk Demo.utc Demo.fs Demo.meter200 "logs/disk_stats.csv" = Ok e /\
    e =f= Fin 30.
Proof.
  destruct (disk_energy_formula Demo.utc Demo.fs Demo.meter200 "logs/disk_stats.csv"
              Demo.session Demo.disk_log) as (e & He & Hf & _).
  - reflexivity.
  - reflexivity.
  - vm_compute. reflexivity.
  - exists e. split; [exact He|]. rewrite Hf. vm_compute. reflexivity.
Defined.

Lemma empty_gpu_window_counts_zero_witness :
  get_total_jules_gpu Demo.utc Demo.fs Demo.meter200 ("logs" ++ "/gpu_stats.csv") = Ok NaN.
Proof.
  apply (empty_gpu_window_counts_zero Demo.utc Demo.fs Demo.meter200 "logs"
           Demo.session Demo.gpu_log).
  - reflexivity.
  - reflexivity.
  - vm_compute. reflexivity.
Defined.

(** C6 as stated fails: the report returned by aggregation has no [total]
    key. *)
Lemma report_has_no_total_key :
  exists data,
    get_total_jules_per_component Demo.utc Demo.fs Demo.meter200 "logs" = Ok data /\
    get data "total" = None.
Proof.
  eexists. split; vm_compute; reflexivity.
Qed.

Lemma report_has_four_components_witness :
  exists data,
    get_total_jules_per_component Demo.utc Demo.fs_busy Demo.meter200 "logs" = Ok data /\
    keys data = ["cpu"; "dram"; "gpu"; "disk"].
Proof.
  eexists. split; [vm_compute; reflexivity|].
  apply (report_has_four_components Demo.utc Demo.fs_busy Demo.meter200 "logs").
  vm_compute. reflexivity.
Defined.

(** Two sockets: 20 J and 1 J of package, 3 J and 0.5 J of memory, 600 J
    of accelerator and 30 J of disk make a total of 654.5 J. *)
Lemma total_is_sum_of_components_witness :
  exists data data' total,
    get_total_jules_per_component Demo.utc Demo.fs_busy TwoSockets.closed "logs"
    = Ok data /\
    with_total data = Ok data' /\
    get data' "total" = Some (Num total) /\
    total =f= Fin (1309 # 2).
Proof.
  destruct (get_total_jules_per_component Demo.utc Demo.fs_busy TwoSockets.closed "logs")
    as [data|e] eqn:E; [|vm_compute in E; discriminate].
  destruct (total_is_sum_of_components Demo.utc Demo.fs_busy TwoSockets.closed "logs"
              data E)
    as (data' & cpu & dram & gpu & disk & total & Hw & Hc & Hd & Hg & Hk & Ht & Hsum).
  exists data, data', total.
  split; [reflexivity|]. split; [exact Hw|]. split; [exact Ht|].
  vm_compute in E. injection E as <-.
  rewrite with_total_shape in Hw. injection Hw as <-.
  injection Hc as <-. injection Hd as <-. injection Hg as <-. injection Hk as <-.
  eapply feq_trans; [exact Hsum|]. vm_compute. reflexivity.
Defined.

(** C7 as stated fails: without the accelerator log, report generation
    raises and no report is returned, also not for the other components. *)
Lemma missing_gpu_log_fails_whole_report :
  meter_result Demo.meter200 = Ok Demo.session /\
  get_total_jules_per_component Demo.utc Demo.fs_no_gpu Demo.meter200 "logs"
  = Raise (FileNotFoundError "logs/gpu_stats.csv").
Proof.
  split; vm_compute; reflexivity.
Qed.

Lemma report_needs_both_logs_witness :
  get_total_jules_per_component Demo.utc Demo.fs_no_disk Demo.meter200 "logs"
  = Raise (FileNotFoundError ("logs" ++ "/disk_stats.csv")).
Proof.
  refine (proj1 (proj2
            (report_needs_both_logs Demo.utc Demo.fs_no_disk Demo.meter200 "logs"
               Demo.session [inject_Z 20000000] [inject_Z 3000000] _ _ _))
            Demo.gpu_log _ _).
  - reflexivity.
  - reflexivity.
  - reflexivity.
  - reflexivity.
  - reflexivity.
Defined.

Lemma tot_bytes_exact_witness :
  tot_bytes Demo.utc Demo.session Demo.disk_log = 800000000%Z.
Proof.
  rewrite (tot_bytes_exact Demo.utc Demo.session Demo.disk_log).
  - reflexivity.
  - vm_compute. repeat constructor; discriminate.
  - vm_compute. reflexivity.
Defined.

Lemma gpu_ignores_rows_outside_window_witness :
  get_total_jules_gpu Demo.utc
    (Demo.fs_of (Some ({| g_timestamp := 999; power_usage := 50 |} :: Demo.gpu_log_busy))
                None)
    Demo.meter200 "logs/gpu_stats.csv"
  = get_total_jules_gpu Demo.utc Demo.fs_busy Demo.meter200 "logs/gpu_stats.csv".
Proof.
  apply (gpu_ignores_rows_outside_window Demo.utc Demo.fs_busy _ Demo.meter200
           "logs/gpu_stats.csv" Demo.session []
           {| g_timestamp := 999; power_usage := 50 |} Demo.gpu_log_busy).
  - reflexivity.
  - reflexivity.
  - reflexivity.
  - vm_compute. reflexivity.
Defined.

Lemma disk_ignores_foreign_rows_witness :
  tot_bytes Demo.utc Demo.session
    ({| d_index := 1004; ByteSize := "rsync"; Operation := 77 |} :: Demo.disk_log)
  = tot_bytes Demo.utc Demo.session Demo.disk_log.
Proof.
  refine (proj1
            (disk_ignores_foreign_rows Demo.utc Demo.fs
               (Demo.fs_of None
                  (Some ({| d_index := 1004; ByteSize := "rsync"; Operation := 77 |}
                           :: Demo.disk_log)))
               Demo.meter200 "logs/disk_stats.csv" Demo.session []
               {| d_index := 1004; ByteSize := "rsync"; Operation := 77 |} Demo.disk_log
               _ _ _ _ _)).
  - reflexivity.
  - reflexivity.
  - reflexivity.
  - discriminate.
  - right. reflexivity.
Defined.

Lemma adjacent_windows_partition_witness :
  let r1 := {| Result.label := PyNone; Result.timestamp := 1000;
               Result.duration := 10000000; Result.pkg := None; Result.dram := None |} in
  let r2 := {| Result.label := PyNone; Result.timestamp := 1010;
               Result.duration := 5000000; Result.pkg := None; Result.dram := None |} in
  in_window Demo.utc r1 1010 && in_window Demo.utc r2 1010 = false.
Proof.
  intros r1 r2.
  refine (proj1 (adjacent_windows_partition Demo.utc r1 r2
           {| Result.label := PyNone; Result.timestamp := 1000;
              Result.duration := 15000000; Result.pkg := None; Result.dram := None |}
           1010 _ _ _ _ _)).
  - vm_compute. reflexivity.
  - vm_compute. reflexivity.
  - vm_compute. reflexivity.
  - vm_compute. discriminate.
  - vm_compute. discriminate.
Defined.

(** With the logs above and a throughput constant of zero the disk value
    is [nan]; with a storage log without rows the report is refused. *)
Lemma zero_speed_gives_non_finite_disk_witness :
  (exists data,
     get_total_jules_per_component Demo.utc Demo.fs (Demo.closed 0 6 1) "logs" = Ok data /\
     get data "disk" = Some (Num NaN)) /\
  get_total_jules_per_component Demo.utc Demo.fs_no_rows (Demo.closed 0 6 1) "logs"
  = Raise ZeroDivisionError.
Proof.
  split.
  - destruct (proj1 (zero_speed_gives_non_finite_disk Demo.utc Demo.fs
                       (Demo.closed 0 6 1) "logs" Demo.session
                       [inject_Z 20000000] [inject_Z 3000000]
                       Demo.gpu_log Demo.disk_log
                       eq_refl eq_refl eq_refl eq_refl eq_refl eq_refl))
      as (data & data' & disk & total & Hdata & _).
    + discriminate.
    + exists data. split; [exact Hdata|].
      vm_compute in Hdata. injection Hdata as <-. reflexivity.
  - apply (proj2 (zero_speed_gives_non_finite_disk Demo.utc Demo.fs_no_rows
                    (Demo.closed 0 6 1) "logs" Demo.session
                    [inject_Z 20000000] [inject_Z 3000000]
                    Demo.gpu_log []
                    eq_refl eq_refl eq_refl eq_refl eq_refl eq_refl)).
    reflexivity.
Defined.

Lemma counter_sum_is_scaled_delta_sum_witness :
  exists cpu, get_total_jules_cpu TwoSockets.closed = Ok cpu /\ Np.sum cpu =f= Fin 21.
Proof.
  destruct (counter_sum_is_scaled_delta_sum TwoSockets.closed
              [Fin (inject_Z 20000000 * micro); Fin (inject_Z 1000000 * micro)]
              [Fin (inject_Z 3000000 * micro); Fin (inject_Z 500000 * micro)])
    as (r & pk & dr & Hr & Hpk & _ & _ & _ & Hsum & _).
  - reflexivity.
  - reflexivity.
  - eexists. split; [reflexivity|].
    vm_compute in Hr. injection Hr as <-.
    vm_compute in Hpk. injection Hpk as <-.
    eapply feq_trans; [exact Hsum|]. vm_compute. reflexivity.
Defined.

Lemma estimators_need_closed_session_witness :
  raises_attribute_error
    (get_total_jules_per_component Demo.utc Demo.fs
       (run [Begin Demo.t0] (Demo.fresh (200000000 # 1) 6 1)) "logs").
Proof.
  apply (estimators_need_closed_session Demo.utc true Demo.fs
           (run [Begin Demo.t0] (Demo.fresh (200000000 # 1) 6 1))
           "logs" "logs/gpu_stats.csv").
  right. eexists. split; reflexivity.
Defined.

(** One socket: a chart on a legacy numpy, [TypeError] on a current one;
    two sockets: [TypeError] on both. *)
Lemma plot_needs_one_socket_witness :
  (exists chart,
     plot_total_jules_per_component Demo.utc true Demo.fs Demo.meter200 "logs" = Ok chart) /\
  plot_total_jules_per_component Demo.utc false Demo.fs Demo.meter200 "logs"
  = Raise TypeError /\
  plot_total_jules_per_component Demo.utc true Demo.fs TwoSockets.closed "logs"
  = Raise TypeError.
Proof.
  destruct (get_total_jules_per_component Demo.utc Demo.fs Demo.meter200 "logs")
    as [data|e] eqn:E; [|vm_compute in E; discriminate].
  destruct (get_total_jules_per_component Demo.utc Demo.fs TwoSockets.closed "logs")
    as [data2|e] eqn:E2; [|vm_compute in E2; discriminate].
  destruct (plot_needs_one_socket Demo.utc true Demo.fs Demo.meter200 "logs" data E)
    as (r & pkg & dram & Hr & Hp & Hd & _ & Hone & _).
  destruct (plot_needs_one_socket Demo.utc false Demo.fs Demo.meter200 "logs" data E)
    as (_ & _ & _ & _ & _ & _ & Hcur & _).
  destruct (plot_needs_one_socket Demo.utc true Demo.fs TwoSockets.closed "logs" data2 E2)
    as (r2 & pkg2 & dram2 & Hr2 & Hp2 & _ & _ & _ & Htwo).
  vm_compute in Hr. injection Hr as <-.
  vm_compute in Hp. injection Hp as <-.
  vm_compute in Hd. injection Hd as <-.
  vm_compute in Hr2. injection Hr2 as <-.
  vm_compute in Hp2. injection Hp2 as <-.
  refine (conj (Hone eq_refl (conj eq_refl eq_refl)) (conj (Hcur eq_refl) (Htwo eq_refl _))).
  left. discriminate.
Defined.

Lemma chart_total_is_sum_of_bars_witness :
  exists chart,
    plot_total_jules_per_component Demo.utc true Demo.fs_busy Demo.meter200 "logs"
    = Ok chart /\
    bar_keys chart = ["cpu"; "dram"; "gpu"; "disk"; "total"].
Proof.
  destruct (plot_total_jules_per_component Demo.utc true Demo.fs_busy Demo.meter200 "logs")
    as [chart|e] eqn:E; [|vm_compute in E; discriminate].
  exists chart. split; [reflexivity|].
  apply (chart_total_is_sum_of_bars Demo.utc true Demo.fs_busy Demo.meter200 "logs" chart E).
Defined.
